(** * The [Option] class of [mod.ts], embedded in Rocq

    [mod.ts] defines one class, [Option<T>], with a private field [#value],
    a private constructor, three static members ([Some], [None], [from]),
    a static type guard ([isOption]) and about twenty methods that are all
    written in terms of [match].

    TypeScript types are erased when the code runs, so the embedding works on
    JavaScript values: the type parameter [T] is the type [value] below, and a
    caller-supplied function is a name whose behaviour (result or thrown
    value, and effect on the caller's world) is given by a host environment.
    Every invocation of a caller-supplied function is recorded, so that
    "invoked exactly once" and "never invoked" are statements about the
    recorded invocations. *)

From Stdlib Require Import ZArith String List Bool Lia.
From Stdlib Require Import DecimalString.
Import ListNotations.

Local Open Scope string_scope.
Local Open Scope list_scope.

(** ** JavaScript values

    The primitives, [Error] objects (what [raise] throws), [TypeError]
    objects (what the host throws), instances of the class itself, and any
    other object (a function, an object of another class), known by an
    identity only.  Numbers are the integer valued ones; the library never
    computes with them.  An instance is modelled by the content of its
    private field: the field is written once, by the constructor, and no
    method compares instances by reference. *)

Inductive value : Type :=
| VUndefined
| VNull
| VBool (b : bool)
| VNumber (n : Z)
| VString (s : string)
| VSymbol (id : nat)
| VError (message : string)
| VTypeError (message : string)
| VObject (id : nat)
| VOption (o : Option)
with Option : Type :=
| new_Option (value_ : value).

(** [this.#value] *)
Definition private_value (this : Option) : value :=
  match this with new_Option v => v end.

(** Modelled from the spec: [isDefined] is imported from the package
    [@oxi/core], which is not part of the sources.  The spec calls it the
    "is this value defined" predicate, and the documentation of [Option.from]
    says that exactly [null] and [undefined] are not defined. *)
Definition isDefined (v : value) : bool :=
  match v with
  | VUndefined | VNull => false
  | _ => true
  end.

(** The condition of a JavaScript [if] or the left operand of [&&]. *)
Definition truthy (v : value) : bool :=
  match v with
  | VUndefined | VNull => false
  | VBool b => b
  | VNumber n => negb (Z.eqb n 0)
  | VString s => negb (String.eqb s EmptyString)
  | VSymbol _ | VError _ | VTypeError _ | VObject _ | VOption _ => true
  end.

(** The [n]-th actual argument of a call; a missing argument reads as
    [undefined]. *)
Definition arg (n : nat) (args : list value) : value := nth n args VUndefined.

(** ** Caller-supplied functions and the effects of a call *)

Definition fnid : Type := string.

Record invocation : Type := Invoke { callee : fnid; arguments : list value }.

Inductive outcome (A : Type) : Type :=
| Returned (a : A)
| Threw (e : value).
Arguments Returned {A} a.
Arguments Threw {A} e.

Section Effects.

(** The caller's world: whatever the caller's functions read and write. *)
Context {World : Type}.

(** What a caller's function does when it is applied to arguments. *)
Definition behaviour : Type := list value -> World -> outcome value * World.

(** A computation returns or throws, changes the world, and leaves the list
    of the invocations of caller functions it made, in order. *)
Definition M (A : Type) : Type := World -> outcome A * World * list invocation.

Definition ret {A} (a : A) : M A := fun w => (Returned a, w, []).

Definition throw {A} (e : value) : M A := fun w => (Threw e, w, []).

Definition bind {A B} (m : M A) (k : A -> M B) : M B :=
  fun w =>
    match m w with
    | (Returned a, w1, t1) =>
        match k a w1 with
        | (r, w2, t2) => (r, w2, t1 ++ t2)
        end
    | (Threw e, w1, t1) => (Threw e, w1, t1)
    end.

(** A function value as the library sees it. *)
Definition callback : Type := list value -> M value.

Variable host : fnid -> behaviour.

(** The caller's function [f] as a function value. *)
Definition call (f : fnid) : callback :=
  fun args w =>
    match host f args w with
    | (r, w1) => (r, w1, [Invoke f args])
    end.

End Effects.

Arguments behaviour World : clear implicits.
Arguments M World A : clear implicits.
Arguments callback World : clear implicits.

Notation "x <- m ;; k" := (bind m (fun x => k))
  (at level 61, m at next level, right associativity).

(** Modelled from the spec: [raise] is imported from [@oxi/core] too.  The
    spec calls it the "raise a labeled failure" primitive; it throws an
    [Error] whose message is its argument. *)
Definition raise {World A} (message : string) : M World A :=
  throw (VError message).

(** ** The module constants *)

Definition TRUE {World} : callback World := fun _ => ret (VBool true).
Definition FALSE {World} : callback World := fun _ => ret (VBool false).
Definition IDENTITY {World} : callback World := fun args => ret (arg 0 args).
Definition NOOP {World} : callback World := fun _ => ret VUndefined.

(** ** The string conversion of a template literal

    The conversion belongs to the host.  On an object it runs code of the
    object (its [toString] or [valueOf]), so in general it is a computation:
    it may throw, may change the world and may invoke caller functions. *)
Definition conversion (World : Type) : Type := value -> M World string.

(** Where the language alone fixes the conversion: [undefined], [null], the
    booleans, the strings, the integers that a number holds exactly and
    prints digit by digit (those below 2^53 in absolute value), and the
    symbols, on which the conversion throws a [TypeError] (with the message
    of V8, the engine of Deno).  Elsewhere (greater numbers, objects) the
    table says nothing. *)
Definition js_string_of (v : value) : option (outcome string) :=
  match v with
  | VUndefined => Datatypes.Some (Returned "undefined")
  | VNull => Datatypes.Some (Returned "null")
  | VBool true => Datatypes.Some (Returned "true")
  | VBool false => Datatypes.Some (Returned "false")
  | VNumber n =>
      if Z.ltb (Z.abs n) (2 ^ 53)
      then Datatypes.Some (Returned (NilZero.string_of_int (Z.to_int n)))
      else Datatypes.None
  | VString s => Datatypes.Some (Returned s)
  | VSymbol _ =>
      Datatypes.Some
        (Threw (VTypeError "Cannot convert a Symbol value to a string"))
  | VError _ | VTypeError _ | VObject _ | VOption _ => Datatypes.None
  end.

(** ** The class *)

Module Option.

(** [static Some<T>(value: T)]: [new Option(value)]. *)
Definition Some (v : value) : Option := new_Option v.

(** [static None = new Option()]: the constructor's parameter is missing,
    so the field holds [undefined]. *)
Definition None : Option := new_Option VUndefined.

(** [static from<T>(value)] *)
Definition from (v : value) : Option :=
  if isDefined v then Some v else None.

(** [static isOption(value)]: [value instanceof Option]. *)
Definition isOption (v : value) : bool :=
  match v with
  | VOption _ => true
  | _ => false
  end.

(** [Option.Some] passed as a function value (as [or] and [orElse] do). *)
Definition Some_fn {World} : callback World :=
  fun args => ret (VOption (Some (arg 0 args))).

Section Methods.

Context {World : Type}.

Definition match_ (this : Option) (onSome onNone : callback World) : M World value :=
  let v := private_value this in
  if isDefined v then onSome [v] else onNone [].

Definition isSome (this : Option) : M World value :=
  match_ this TRUE FALSE.

Definition isSomeAnd (this : Option) (predicate : callback World) : M World value :=
  match_ this predicate FALSE.

Definition isNone (this : Option) : M World value :=
  match_ this FALSE TRUE.

Definition expect (this : Option) (message : string) : M World value :=
  match_ this IDENTITY (fun _ => raise message).

Definition unwrap (this : Option) : M World value :=
  expect this "called `Option.unwrap()` on a `None` value".

Definition unwrapOr (this : Option) (defaultValue : value) : M World value :=
  match_ this IDENTITY (fun _ => ret defaultValue).

Definition unwrapOrElse (this : Option) (onNone : callback World) : M World value :=
  match_ this IDENTITY onNone.

Definition map (this : Option) (mapper : callback World) : M World value :=
  match_ this
    (fun args => r <- mapper [arg 0 args] ;; ret (VOption (Some r)))
    (fun _ => ret (VOption None)).

Definition mapOr (this : Option) (defaultValue : value) (mapper : callback World)
  : M World value :=
  match_ this mapper (fun _ => ret defaultValue).

Definition mapOrElse (this : Option) (onNone mapper : callback World) : M World value :=
  match_ this mapper onNone.

Definition inspect (this : Option) (onSome : callback World) : M World value :=
  _ <- match_ this onSome NOOP ;;
  ret (VOption this).

Definition and (this other : Option) : M World value :=
  match_ this
    (fun _ => ret (VOption other))
    (fun _ => ret (VOption None)).

Definition andThen (this : Option) (mapper : callback World) : M World value :=
  match_ this mapper (fun _ => ret (VOption None)).

Definition filter (this : Option) (predicate : callback World) : M World value :=
  c <- isSomeAnd this predicate ;;
  if truthy c then ret (VOption this) else ret (VOption None).

Definition or (this other : Option) : M World value :=
  match_ this Some_fn (fun _ => ret (VOption other)).

Definition orElse (this : Option) (onNone : callback World) : M World value :=
  match_ this Some_fn onNone.

(** [a && b]: [b] is evaluated only when [a] is truthy. *)
Definition and_then_eval (a : M World value) (b : M World value) : M World value :=
  x <- a ;;
  if truthy x then b else ret x.

Definition xor (this other : Option) : M World value :=
  c1 <- and_then_eval (isSome this) (isNone other) ;;
  if truthy c1 then ret (VOption this)
  else
    c2 <- and_then_eval (isNone this) (isSome other) ;;
    if truthy c2 then ret (VOption other)
    else ret (VOption None).

Definition toJSON (this : Option) : M World value :=
  match_ this IDENTITY (fun _ => ret VUndefined).

(** [toString()]; [stringify] is the host's conversion of the value placed
    in the template literal. *)
Definition toString (stringify : conversion World) (this : Option)
  : M World value :=
  match_ this
    (fun args =>
       s <- stringify (arg 0 args) ;; ret (VString ("Some(" ++ s ++ ")")))
    (fun _ => ret (VString "None")).

End Methods.

End Option.

(** The state of an instance, as [match] decides it: the instance holds a
    value when its field is defined. *)
Definition present (o : Option) : bool := isDefined (private_value o).

(** ** The methods as one interface

    A method call on an instance, with caller functions given by name and
    the host's string conversion. *)

Inductive method : Type :=
| m_match (onSome onNone : fnid)
| m_isSome
| m_isSomeAnd (predicate : fnid)
| m_isNone
| m_expect (message : string)
| m_unwrap
| m_unwrapOr (defaultValue : value)
| m_unwrapOrElse (onNone : fnid)
| m_map (mapper : fnid)
| m_mapOr (defaultValue : value) (mapper : fnid)
| m_mapOrElse (onNone mapper : fnid)
| m_inspect (onSome : fnid)
| m_and (other : Option)
| m_andThen (mapper : fnid)
| m_filter (predicate : fnid)
| m_or (other : Option)
| m_orElse (onNone : fnid)
| m_xor (other : Option)
| m_toJSON
| m_toString.

Definition send {World} (host : fnid -> behaviour World)
  (stringify : conversion World) (this : Option) (m : method)
  : M World value :=
  match m with
  | m_match onSome onNone =>
      Option.match_ this (call host onSome) (call host onNone)
  | m_isSome => Option.isSome this
  | m_isSomeAnd predicate => Option.isSomeAnd this (call host predicate)
  | m_isNone => Option.isNone this
  | m_expect message => Option.expect this message
  | m_unwrap => Option.unwrap this
  | m_unwrapOr defaultValue => Option.unwrapOr this defaultValue
  | m_unwrapOrElse onNone => Option.unwrapOrElse this (call host onNone)
  | m_map mapper => Option.map this (call host mapper)
  | m_mapOr defaultValue mapper =>
      Option.mapOr this defaultValue (call host mapper)
  | m_mapOrElse onNone mapper =>
      Option.mapOrElse this (call host onNone) (call host mapper)
  | m_inspect onSome => Option.inspect this (call host onSome)
  | m_and other => Option.and this other
  | m_andThen mapper => Option.andThen this (call host mapper)
  | m_filter predicate => Option.filter this (call host predicate)
  | m_or other => Option.or this other
  | m_orElse onNone => Option.orElse this (call host onNone)
  | m_xor other => Option.xor this other
  | m_toJSON => Option.toJSON this
  | m_toString => Option.toString stringify this
  end.

(** ** A caller, for the examples

    The world is one variable of the caller (the [value] of the [inspect]
    test); the functions are those of the tests and a few constant ones. *)

Definition test_host : fnid -> behaviour value :=
  fun f args w =>
    if String.eqb f "v => v + 1" then
      match arg 0 args with
      | VNumber n => (Returned (VNumber (n + 1)), w)
      | _ => (Returned VUndefined, w)
      end
    else if String.eqb f "v => v === 10" then
      match arg 0 args with
      | VNumber n => (Returned (VBool (Z.eqb n 10)), w)
      | _ => (Returned (VBool false), w)
      end
    else if String.eqb f "v => (value = v)" then
      (Returned (arg 0 args), arg 0 args)
    else if String.eqb f "() => 1" then (Returned (VNumber 1), w)
    else if String.eqb f "() => Option.Some(1)" then
      (Returned (VOption (Option.Some (VNumber 1))), w)
    else if String.eqb f "() => { throw new Error('boom') }" then
      (Threw (VError "boom"), w)
    else (Returned VUndefined, w).

(** The conversion of the examples: the language's where [js_string_of]
    gives it, without effect; the examples do not convert other values, on
    which it throws. *)
Definition test_stringify {World} : conversion World :=
  fun v =>
    match js_string_of v with
    | Datatypes.Some (Returned s) => ret s
    | Datatypes.Some (Threw e) => throw e
    | Datatypes.None => throw (VTypeError "no conversion in the examples")
    end.


(** ** Observations

    [thrown_by_caller host e w t]: the last invocation recorded in [t] is a
    call of a caller function that threw [e] and left the world [w]. *)
Definition thrown_by_caller {World} (host : fnid -> behaviour World)
  (e : value) (w : World) (t : list invocation) : Prop :=
  exists (t0 : list invocation) (f : fnid) (args : list value) (w0 : World),
    t = t0 ++ [Invoke f args] /\ host f args w0 = (Threw e, w).

(** Two results are alike when they are equal, or when both are instances
    that hold no value. *)
Definition alike (r1 r2 : outcome value) : Prop :=
  r1 = r2
  \/ exists a b : Option,
       r1 = Returned (VOption a) /\ r2 = Returned (VOption b)
       /\ present a = false /\ present b = false.

(** The methods whose result is built by the class itself, with [Some],
    [None], the receiver or the other instance; the remaining ones return
    what is stored or what a caller function returned. *)
Definition returns_instance (m : method) : bool :=
  match m with
  | m_map _ | m_inspect _ | m_and _ | m_filter _ | m_or _ | m_xor _ => true
  | _ => false
  end.

(** A method call [r.method(...)] on a value [r] that a caller function
    returned: the method [k] runs when [r] is an instance.  What the host
    does with any other value (the property lookup fails or finds something
    else) is left as the parameter [not_an_instance]. *)
Definition method_of {World} (not_an_instance : value -> M World value)
  (r : value) (k : Option -> M World value) : M World value :=
  match r with
  | VOption o => k o
  | _ => not_an_instance r
  end.

(** * Properties *)

(** ** The cases of the repository's tests

    [some()] is [Option.Some(10)] and [none()] is [Option.None]. *)

Example test_from :
  Option.from (VNumber 1) = Option.Some (VNumber 1)
  /\ Option.from VNull = Option.None
  /\ Option.from VUndefined = Option.None.
Proof. repeat split. Qed.

Example test_match :
  Option.match_ (Option.Some (VNumber 10)) (call test_host "v => v + 1")
    (call test_host "() => 1") VNull
  = (Returned (VNumber 11), VNull, [Invoke "v => v + 1" [VNumber 10]])
  /\ Option.match_ Option.None (call test_host "v => v + 1")
       (call test_host "() => 1") VNull
     = (Returned (VNumber 1), VNull, [Invoke "() => 1" []]).
Proof. split; reflexivity. Qed.

Example test_expect :
  Option.expect (Option.Some (VNumber 10)) "value is not defined" VNull
  = (Returned (VNumber 10), VNull, [])
  /\ Option.expect Option.None "value is not defined" VNull
     = (Threw (VError "value is not defined"), VNull, []).
Proof. split; reflexivity. Qed.

Example test_unwrap :
  Option.unwrap (Option.Some (VNumber 10)) VNull
  = (Returned (VNumber 10), VNull, [])
  /\ Option.unwrap Option.None VNull
     = (Threw (VError "called `Option.unwrap()` on a `None` value"), VNull, []).
Proof. split; reflexivity. Qed.

Example test_map :
  Option.map (Option.Some (VNumber 10)) (call test_host "v => v + 1") VNull
  = (Returned (VOption (Option.Some (VNumber 11))), VNull,
     [Invoke "v => v + 1" [VNumber 10]])
  /\ Option.map Option.None (call test_host "v => v + 1") VNull
     = (Returned (VOption Option.None), VNull, []).
Proof. split; reflexivity. Qed.

Example test_inspect :
  Option.inspect (Option.Some (VNumber 10)) (call test_host "v => (value = v)")
    (VNumber 0)
  = (Returned (VOption (Option.Some (VNumber 10))), VNumber 10,
     [Invoke "v => (value = v)" [VNumber 10]])
  /\ Option.inspect Option.None (call test_host "v => (value = v)") (VNumber 0)
     = (Returned (VOption Option.None), VNumber 0, []).
Proof. split; reflexivity. Qed.

Example test_filter :
  Option.filter (Option.Some (VNumber 10)) (call test_host "v => v === 10") VNull
  = (Returned (VOption (Option.Some (VNumber 10))), VNull,
     [Invoke "v => v === 10" [VNumber 10]])
  /\ Option.filter (Option.Some (VNumber 11)) (call test_host "v => v === 10")
       VNull
     = (Returned (VOption Option.None), VNull,
        [Invoke "v => v === 10" [VNumber 11]])
  /\ Option.filter Option.None (call test_host "v => v === 10") VNull
     = (Returned (VOption Option.None), VNull, []).
Proof. repeat split. Qed.

Example test_xor :
  Option.xor (Option.Some (VNumber 10)) (Option.Some (VNumber 20)) VNull
  = (Returned (VOption Option.None), VNull, [])
  /\ Option.xor (Option.Some (VNumber 10)) Option.None VNull
     = (Returned (VOption (Option.Some (VNumber 10))), VNull, [])
  /\ Option.xor Option.None (Option.Some (VNumber 20)) VNull
     = (Returned (VOption (Option.Some (VNumber 20))), VNull, [])
  /\ Option.xor Option.None Option.None VNull
     = (Returned (VOption Option.None), VNull, []).
Proof. repeat split. Qed.

Example test_toJSON :
  Option.toJSON (Option.Some (VNumber 10)) VNull
  = (Returned (VNumber 10), VNull, [])
  /\ Option.toJSON Option.None VNull = (Returned VUndefined, VNull, []).
Proof. split; reflexivity. Qed.

Example test_toString :
  Option.toString test_stringify (Option.Some (VNumber 10)) VNull
  = (Returned (VString "Some(10)"), VNull, [])
  /\ Option.toString test_stringify Option.None VNull
     = (Returned (VString "None"), VNull, []).
Proof. split; reflexivity. Qed.

(** What a caller function throws passes through the method that invoked
    it; here the mapper of [map]. *)
Example callback_error_passes_through :
  Option.map (Option.Some (VNumber 10))
    (call test_host "() => { throw new Error('boom') }") VNull
  = (Threw (VError "boom"), VNull,
     [Invoke "() => { throw new Error('boom') }" [VNumber 10]])
  /\ thrown_by_caller test_host (VError "boom") VNull
       [Invoke "() => { throw new Error('boom') }" [VNumber 10]].
Proof.
  split; [reflexivity |].
  exists [], "() => { throw new Error('boom') }", [VNumber 10], VNull.
  split; reflexivity.
Qed.

(** ** The state of an instance *)

Lemma present_Some (v : value) : present (Option.Some v) = isDefined v.
Proof. reflexivity. Qed.

Lemma present_None : present Option.None = false.
Proof. reflexivity. Qed.

Lemma isDefined_true_iff (v : value) :
  isDefined v = true <-> v <> VNull /\ v <> VUndefined.
Proof.
  split.
  - intros H; split; intros ->; discriminate H.
  - intros [Hn Hu]; destruct v; try reflexivity; congruence.
Qed.

(** [match] on an instance, by the state of the instance. *)
Lemma match_present {World} (this : Option) (onSome onNone : callback World) :
  present this = true ->
  Option.match_ this onSome onNone = onSome [private_value this].
Proof. unfold Option.match_, present; intros ->; reflexivity. Qed.

Lemma match_absent {World} (this : Option) (onSome onNone : callback World) :
  present this = false ->
  Option.match_ this onSome onNone = onNone [].
Proof. unfold Option.match_, present; intros ->; reflexivity. Qed.

(** Unfolds a method call down to [match] and the monad. *)
Ltac unfold_methods :=
  unfold send, Option.xor, Option.and_then_eval, Option.filter,
    Option.inspect, Option.map, Option.mapOr, Option.mapOrElse,
    Option.andThen, Option.and, Option.or, Option.orElse, Option.toJSON,
    Option.toString, Option.unwrap, Option.expect, Option.unwrapOr,
    Option.unwrapOrElse, Option.isSomeAnd, Option.isSome, Option.isNone.

Ltac unfold_methods_in H :=
  unfold send, Option.xor, Option.and_then_eval, Option.filter,
    Option.inspect, Option.map, Option.mapOr, Option.mapOrElse,
    Option.andThen, Option.and, Option.or, Option.orElse, Option.toJSON,
    Option.toString, Option.unwrap, Option.expect, Option.unwrapOr,
    Option.unwrapOrElse, Option.isSomeAnd, Option.isSome, Option.isNone in H.

Ltac run_monad :=
  unfold raise, bind, ret, throw, call, TRUE, FALSE, IDENTITY, NOOP,
    Option.Some_fn, arg; cbn.

Ltac run_monad_in H :=
  unfold raise, bind, ret, throw, call, TRUE, FALSE, IDENTITY, NOOP,
    Option.Some_fn, arg in H; cbn in H.

(** The calls of caller functions that a hypothesis mentions, by cases on
    what the function does. *)
Ltac case_host H :=
  repeat match type of H with
         | context [?host ?f ?args ?w] =>
             match type of host with
             | fnid -> behaviour _ =>
                 let Hh := fresh "Hhost" in
                 destruct (host f args w) as [[? | ?] ?] eqn:Hh; cbn in H
             end
         end.

(** ** The methods, run *)

Lemma isSome_run {World} (o : Option) (w : World) :
  Option.isSome o w = (Returned (VBool (present o)), w, []).
Proof.
  unfold Option.isSome, Option.match_. fold (present o).
  destruct (present o); reflexivity.
Qed.

Lemma isNone_run {World} (o : Option) (w : World) :
  Option.isNone o w = (Returned (VBool (negb (present o))), w, []).
Proof.
  unfold Option.isNone, Option.match_. fold (present o).
  destruct (present o); reflexivity.
Qed.

Lemma xor_run {World} (a b : Option) (w : World) :
  Option.xor a b w
  = (Returned (VOption (match present a, present b with
                        | true, false => a
                        | false, true => b
                        | true, true | false, false => Option.None
                        end)), w, []).
Proof.
  unfold Option.xor, Option.and_then_eval, bind.
  rewrite isSome_run.
  destruct (present a) eqn:Ha; cbn.
  - rewrite isNone_run. destruct (present b) eqn:Hb; cbn.
    + rewrite isNone_run, Ha. reflexivity.
    + reflexivity.
  - rewrite isNone_run, Ha. cbn. rewrite isSome_run.
    destruct (present b) eqn:Hb; reflexivity.
Qed.

Lemma filter_run {World} (host : fnid -> behaviour World)
  (a : Option) (p : fnid) (w : World) :
  Option.filter a (call host p) w
  = if present a
    then match host p [private_value a] w with
         | (Returned c, w1) =>
             (Returned (VOption (if truthy c then a else Option.None)), w1,
              [Invoke p [private_value a]])
         | (Threw e, w1) => (Threw e, w1, [Invoke p [private_value a]])
         end
    else (Returned (VOption Option.None), w, []).
Proof.
  unfold Option.filter, Option.isSomeAnd, bind.
  destruct (present a) eqn:Ha.
  - rewrite match_present by exact Ha. unfold call.
    destruct (host p [private_value a] w) as [[c | e] w1]; [| reflexivity].
    destruct (truthy c); reflexivity.
  - rewrite match_absent by exact Ha. reflexivity.
Qed.

(** A method call on an instance that holds no value, in closed form.  Only
    [inspect], which returns its receiver, depends on the receiver at all. *)
Lemma send_absent {World} (host : fnid -> behaviour World)
  (stringify : conversion World) (this : Option) (m : method) (w : World) :
  present this = false ->
  send host stringify this m w
  = match m with
    | m_match _ onNone | m_unwrapOrElse onNone | m_mapOrElse onNone _
    | m_orElse onNone => call host onNone [] w
    | m_isSome | m_isSomeAnd _ => (Returned (VBool false), w, [])
    | m_isNone => (Returned (VBool true), w, [])
    | m_expect message => (Threw (VError message), w, [])
    | m_unwrap =>
        (Threw (VError "called `Option.unwrap()` on a `None` value"), w, [])
    | m_unwrapOr d | m_mapOr d _ => (Returned d, w, [])
    | m_map _ | m_and _ | m_andThen _ | m_filter _ =>
        (Returned (VOption Option.None), w, [])
    | m_inspect _ => (Returned (VOption this), w, [])
    | m_or other => (Returned (VOption other), w, [])
    | m_xor other =>
        (Returned (VOption (if present other then other else Option.None)),
         w, [])
    | m_toJSON => (Returned VUndefined, w, [])
    | m_toString => (Returned (VString "None"), w, [])
    end.
Proof.
  intros Hp. unfold send.
  destruct m; try (rewrite xor_run, Hp; reflexivity);
    unfold_methods; unfold bind;
    rewrite ?match_absent by exact Hp; reflexivity.
Qed.


Lemma toString_run {World} (stringify : conversion World)
  (this : Option) (w : World) :
  Option.toString stringify this w
  = if present this
    then match stringify (private_value this) w with
         | (Returned s, w1, t) =>
             (Returned (VString ("Some(" ++ s ++ ")")), w1, t)
         | (Threw e, w1, t) => (Threw e, w1, t)
         end
    else (Returned (VString "None"), w, []).
Proof.
  unfold Option.toString, Option.match_. fold (present this).
  destruct (present this); [| reflexivity].
  unfold bind, ret, arg. cbn.
  destruct (stringify (private_value this) w) as [[[s | e] w1] t];
    [rewrite app_nil_r |]; reflexivity.
Qed.


(** ** Construction *)

(** C1, as amended: for every value [v] other than [null] and [undefined]
    (so for the falsy values [0], the empty string and [false] too),
    [Some(v).isSome()] returns [true] and [Some(v).unwrap()] returns [v];
    neither changes the world nor invokes a caller function. *)
Theorem Some_wraps_defined_value :
  forall (World : Type) (v : value) (w : World),
    isDefined v = true ->
    Option.isSome (Option.Some v) w = (Returned (VBool true), w, [])
    /\ Option.unwrap (Option.Some v) w = (Returned v, w, []).
Proof.
  intros World v w Hv.
  unfold_methods.
  rewrite !match_present by (rewrite present_Some; exact Hv).
  split; reflexivity.
Qed.

Lemma Some_wraps_defined_value_witness :
  (Option.isSome (Option.Some (VNumber 0)) tt = (Returned (VBool true), tt, [])
   /\ Option.unwrap (Option.Some (VNumber 0)) tt
      = (Returned (VNumber 0), tt, []))
  /\ (Option.isSome (Option.Some (VString EmptyString)) tt
      = (Returned (VBool true), tt, [])
      /\ Option.unwrap (Option.Some (VString EmptyString)) tt
         = (Returned (VString EmptyString), tt, []))
  /\ (Option.isSome (Option.Some (VBool false)) tt
      = (Returned (VBool true), tt, [])
      /\ Option.unwrap (Option.Some (VBool false)) tt
         = (Returned (VBool false), tt, [])).
Proof.
  split; [| split].
  - apply (Some_wraps_defined_value unit (VNumber 0) tt); reflexivity.
  - apply (Some_wraps_defined_value unit (VString EmptyString) tt); reflexivity.
  - apply (Some_wraps_defined_value unit (VBool false) tt); reflexivity.
Defined.

(** C1 as stated fails at [null] (and at [undefined]): [Some(null).isSome()]
    returns [false] and [Some(null).unwrap()] throws. *)
Lemma Some_null_is_not_Some :
  Option.isSome (Option.Some VNull) tt = (Returned (VBool false), tt, [])
  /\ Option.isSome (Option.Some VNull) tt <> (Returned (VBool true), tt, [])
  /\ Option.unwrap (Option.Some VNull) tt
     = (Threw (VError "called `Option.unwrap()` on a `None` value"), tt, [])
  /\ Option.unwrap (Option.Some VNull) tt <> (Returned VNull, tt, [])
  /\ Option.isSome (Option.Some VUndefined) tt
     = (Returned (VBool false), tt, []).
Proof.
  repeat split; try reflexivity; cbv; discriminate.
Qed.

(** C3: [Option.from] returns [None] exactly for [null] and [undefined], and
    [Some(value)], which holds a value, for every other input; [0], the
    empty string and [false] are among the latter. *)
Theorem from_is_None_exactly_on_null_and_undefined :
  forall v : value,
    (Option.from v = Option.None <-> v = VNull \/ v = VUndefined)
    /\ Option.from v
       = match v with
         | VNull | VUndefined => Option.None
         | _ => Option.Some v
         end
    /\ present (Option.from v)
       = match v with
         | VNull | VUndefined => false
         | _ => true
         end
    /\ Option.from (VNumber 0) = Option.Some (VNumber 0)
    /\ Option.from (VString EmptyString) = Option.Some (VString EmptyString)
    /\ Option.from (VBool false) = Option.Some (VBool false).
Proof.
  intros v. repeat split; try reflexivity.
  - destruct v; cbv; intros H; try discriminate H; auto.
  - intros [-> | ->]; reflexivity.
  - destruct v; reflexivity.
  - destruct v; reflexivity.
Qed.

(** ** The eliminator *)

(** C2: [match] invokes exactly one of the two functions: [onSome], with the
    field as its one argument, when the field is defined, and [onNone], with
    no argument, otherwise.  What that function returns or throws is the
    result of [match], the world is the one that function leaves, and the
    invocations made are that single one. *)
Theorem match_invokes_exactly_one_branch :
  forall (World : Type) (host : fnid -> behaviour World)
         (this : Option) (onSome onNone : fnid) (w : World),
    Option.match_ this (call host onSome) (call host onNone) w =
      if present this
      then (fst (host onSome [private_value this] w),
            snd (host onSome [private_value this] w),
            [Invoke onSome [private_value this]])
      else (fst (host onNone [] w),
            snd (host onNone [] w),
            [Invoke onNone []]).
Proof.
  intros World host this onSome onNone w.
  destruct (present this) eqn:Hp.
  - rewrite match_present by exact Hp. unfold call.
    destruct (host onSome [private_value this] w); reflexivity.
  - rewrite match_absent by exact Hp. unfold call.
    destruct (host onNone [] w); reflexivity.
Qed.

(** ** Transformation and chaining *)

(** C4, as amended: for every value [v] other than [null] and [undefined]
    and every function [f], [Some(v).map(f)] invokes [f] once, on [v], and
    returns [Some(f(v))] (or throws what [f] throws); [None.map(f)] returns
    [None] and does not invoke [f]. *)
Theorem map_functor_law_on_defined_values :
  forall (World : Type) (host : fnid -> behaviour World)
         (v : value) (f : fnid) (w : World),
    isDefined v = true ->
    Option.map (Option.Some v) (call host f) w
    = (r <- call host f [v] ;; ret (VOption (Option.Some r))) w
    /\ Option.map (Option.Some v) (call host f) w
       = match host f [v] w with
         | (Returned r, w1) =>
             (Returned (VOption (Option.Some r)), w1, [Invoke f [v]])
         | (Threw e, w1) => (Threw e, w1, [Invoke f [v]])
         end
    /\ Option.map Option.None (call host f) w
       = (Returned (VOption Option.None), w, []).
Proof.
  intros World host v f w Hv.
  unfold Option.map.
  rewrite !match_present by (rewrite present_Some; exact Hv).
  split; [| split].
  - reflexivity.
  - run_monad. destruct (host f [v] w) as [[r | e] w1]; reflexivity.
  - reflexivity.
Qed.

Lemma map_functor_law_on_defined_values_witness :
  Option.map (Option.Some (VNumber 10)) (call test_host "v => v + 1") VNull
  = (r <- call test_host "v => v + 1" [VNumber 10] ;;
     ret (VOption (Option.Some r))) VNull
  /\ Option.map (Option.Some (VNumber 10)) (call test_host "v => v + 1") VNull
     = (Returned (VOption (Option.Some (VNumber 11))), VNull,
        [Invoke "v => v + 1" [VNumber 10]])
  /\ Option.map Option.None (call test_host "v => v + 1") VNull
     = (Returned (VOption Option.None), VNull, []).
Proof.
  exact (map_functor_law_on_defined_values value test_host (VNumber 10)
           "v => v + 1" VNull eq_refl).
Defined.

(** C4 as stated fails at [v = null]: with [f] the constant function
    [() => 1], [Some(null).map(f)] is [None] and [f] is not invoked, while
    [Some(f(null))] is [Some(1)]. *)
Lemma map_of_Some_null_is_None :
  Option.map (Option.Some VNull) (call test_host "() => 1") VNull
  = (Returned (VOption Option.None), VNull, [])
  /\ (r <- call test_host "() => 1" [VNull] ;; ret (VOption (Option.Some r)))
       VNull
     = (Returned (VOption (Option.Some (VNumber 1))), VNull,
        [Invoke "() => 1" [VNull]])
  /\ Option.map (Option.Some VNull) (call test_host "() => 1") VNull
     <> (r <- call test_host "() => 1" [VNull] ;;
         ret (VOption (Option.Some r))) VNull.
Proof.
  repeat split; try reflexivity. cbv. discriminate.
Qed.

(** C5, as amended: for every value [v] other than [null] and [undefined]
    and every function [f], [Some(v).andThen(f)] is [f(v)]: the same result
    or thrown value, the same world, and the single invocation of [f] on
    [v]; [None.andThen(f)] returns [None] and does not invoke [f]. *)
Theorem andThen_left_identity_on_defined_values :
  forall (World : Type) (host : fnid -> behaviour World)
         (v : value) (f : fnid) (w : World),
    isDefined v = true ->
    Option.andThen (Option.Some v) (call host f) w = call host f [v] w
    /\ Option.andThen Option.None (call host f) w
       = (Returned (VOption Option.None), w, []).
Proof.
  intros World host v f w Hv. split.
  - unfold Option.andThen.
    rewrite match_present by (rewrite present_Some; exact Hv).
    reflexivity.
  - reflexivity.
Qed.

Lemma andThen_left_identity_on_defined_values_witness :
  Option.andThen (Option.Some (VNumber 0))
    (call test_host "() => Option.Some(1)") VNull
  = call test_host "() => Option.Some(1)" [VNumber 0] VNull
  /\ Option.andThen Option.None (call test_host "() => Option.Some(1)") VNull
     = (Returned (VOption Option.None), VNull, []).
Proof.
  apply (andThen_left_identity_on_defined_values value test_host (VNumber 0)
           "() => Option.Some(1)" VNull).
  reflexivity.
Defined.

(** C5 as stated fails at [v = null]: with [f] the function
    [() => Option.Some(1)], [Some(null).andThen(f)] is [None] and [f] is not
    invoked, while [f(null)] is [Some(1)]. *)
Lemma andThen_of_Some_null_is_None :
  Option.andThen (Option.Some VNull) (call test_host "() => Option.Some(1)")
    VNull
  = (Returned (VOption Option.None), VNull, [])
  /\ call test_host "() => Option.Some(1)" [VNull] VNull
     = (Returned (VOption (Option.Some (VNumber 1))), VNull,
        [Invoke "() => Option.Some(1)" [VNull]])
  /\ Option.andThen (Option.Some VNull)
       (call test_host "() => Option.Some(1)") VNull
     <> call test_host "() => Option.Some(1)" [VNull] VNull.
Proof.
  repeat split; try reflexivity. cbv. discriminate.
Qed.

(** ** Interop *)

(** C6: for every value [v] other than [null] and [undefined],
    [Option.from(Some(v).toJSON())] is [Some(v)], and
    [Option.from(None.toJSON())] is [None]. *)
Theorem from_toJSON_round_trip :
  forall (World : Type) (v : value) (w : World),
    v <> VNull -> v <> VUndefined ->
    (j <- Option.toJSON (Option.Some v) ;; ret (VOption (Option.from j))) w
    = (Returned (VOption (Option.Some v)), w, [])
    /\ (j <- Option.toJSON Option.None ;; ret (VOption (Option.from j))) w
       = (Returned (VOption Option.None), w, []).
Proof.
  intros World v w Hn Hu.
  assert (Hv : isDefined v = true) by (apply isDefined_true_iff; auto).
  split.
  - unfold Option.toJSON.
    rewrite match_present by (rewrite present_Some; exact Hv).
    run_monad. unfold Option.from. rewrite Hv. reflexivity.
  - reflexivity.
Qed.

Lemma from_toJSON_round_trip_witness :
  (j <- Option.toJSON (Option.Some (VNumber 0)) ;;
   ret (VOption (Option.from j))) tt
  = (Returned (VOption (Option.Some (VNumber 0))), tt, [])
  /\ (j <- Option.toJSON Option.None ;; ret (VOption (Option.from j))) tt
     = (Returned (VOption Option.None), tt, []).
Proof.
  apply (from_toJSON_round_trip unit (VNumber 0) tt); discriminate.
Defined.

(** ** Exclusive or, and filter *)

(** C7: [a.xor(b)] returns an instance that holds a value if and only if
    exactly one of [a] and [b] does; it is then that one of the two, and it
    is [None] when both or neither hold a value.  No caller function is
    involved and the world is unchanged. *)
Theorem xor_exactly_one_present :
  forall (World : Type) (a b : Option) (w : World),
    exists r : Option,
      Option.xor a b w = (Returned (VOption r), w, [])
      /\ present r = xorb (present a) (present b)
      /\ r = match present a, present b with
             | true, false => a
             | false, true => b
             | true, true | false, false => Option.None
             end.
Proof.
  intros World a b w.
  eexists. split; [apply xor_run | split; [| reflexivity]].
  destruct (present a) eqn:Ha, (present b) eqn:Hb; cbn; auto.
Qed.

(** C8: [a.filter(p)] on an instance that holds a value invokes [p] once on
    that value and returns [a] itself when [p] returns [true], [None] when
    [p] returns [false] (a result that is not a boolean counts by its
    truthiness, and what [p] throws is thrown); on an instance that holds no
    value it returns [None] and does not invoke [p].  So the result holds a
    value if and only if [a] does and [p] accepts it, and it is then [a];
    otherwise it is [None]. *)
Theorem filter_keeps_exactly_accepted_values :
  forall (World : Type) (host : fnid -> behaviour World)
         (a : Option) (p : fnid) (w : World),
    Option.filter a (call host p) w
    = (if present a
       then match host p [private_value a] w with
            | (Returned c, w1) =>
                (Returned (VOption (if truthy c then a else Option.None)), w1,
                 [Invoke p [private_value a]])
            | (Threw e, w1) => (Threw e, w1, [Invoke p [private_value a]])
            end
       else (Returned (VOption Option.None), w, []))
    /\ (forall (r : Option) (w1 : World) (t : list invocation),
          Option.filter a (call host p) w = (Returned (VOption r), w1, t) ->
          (present r = true <->
             present a = true
             /\ exists c, host p [private_value a] w = (Returned c, w1)
                          /\ truthy c = true)
          /\ (present r = true -> r = a)
          /\ (present r = false -> r = Option.None)).
Proof.
  intros World host a p w.
  split; [apply filter_run |].
  intros r w1 t Hr. rewrite filter_run in Hr.
  destruct (present a) eqn:Ha.
  - destruct (host p [private_value a] w) as [[c | e] w0]; [| discriminate Hr].
    injection Hr as Hr1 Hr2 Hr3. subst w0 t.
    destruct (truthy c) eqn:Hc; subst r.
    + rewrite Ha. repeat split; auto.
      * exists c; auto.
      * intros H; discriminate H.
    + rewrite present_None. repeat split; auto; try discriminate.
      intros [_ [c' [Hc' Ht]]]. injection Hc' as ->. congruence.
  - injection Hr as Hr1 Hr2 Hr3. subst r w1 t.
    rewrite present_None. repeat split; auto; try discriminate.
    intros [H _]; discriminate H.
Qed.

(** ** Errors *)



(** ** [Some(null)] and [Some(undefined)] *)

(** C10: for [v] one of [null] and [undefined], every method gives on
    [Some(v)] what it gives on [None]: the same result or thrown value, the
    same world, the same invocations.  The one exception in form is
    [inspect], which returns its receiver, so [Some(v)] itself on one side
    and [None] on the other, without invoking its argument.  In particular
    [isSome] returns [false], [unwrap] throws, [map], [andThen] and [filter]
    return [None] without invoking their argument, and [match] invokes
    [onNone].  As the argument of [and], [or] and [xor], [Some(v)] gives
    results like those [None] gives, and [isOption] accepts both. *)
Theorem Some_of_null_or_undefined_behaves_as_None :
  forall (World : Type) (host : fnid -> behaviour World)
         (stringify : conversion World)
         (v : value) (m : method) (w : World),
    isDefined v = false ->
    (send host stringify (Option.Some v) m w
     = send host stringify Option.None m w
     \/ exists onSome : fnid,
          m = m_inspect onSome
          /\ send host stringify (Option.Some v) m w
             = (Returned (VOption (Option.Some v)), w, [])
          /\ send host stringify Option.None m w
             = (Returned (VOption Option.None), w, []))
    /\ Option.isSome (Option.Some v) w = (Returned (VBool false), w, [])
    /\ Option.unwrap (Option.Some v) w
       = (Threw (VError "called `Option.unwrap()` on a `None` value"), w, [])
    /\ (forall f : fnid,
          Option.map (Option.Some v) (call host f) w
          = (Returned (VOption Option.None), w, [])
          /\ Option.andThen (Option.Some v) (call host f) w
             = (Returned (VOption Option.None), w, [])
          /\ Option.filter (Option.Some v) (call host f) w
             = (Returned (VOption Option.None), w, []))
    /\ (forall onSome onNone : fnid,
          Option.match_ (Option.Some v) (call host onSome) (call host onNone) w
          = call host onNone [] w)
    /\ (forall x : Option,
          Option.xor x (Option.Some v) w = Option.xor x Option.None w
          /\ (exists r1 r2 : outcome value,
                Option.and x (Option.Some v) w = (r1, w, [])
                /\ Option.and x Option.None w = (r2, w, [])
                /\ alike r1 r2)
          /\ (exists r1 r2 : outcome value,
                Option.or x (Option.Some v) w = (r1, w, [])
                /\ Option.or x Option.None w = (r2, w, [])
                /\ alike r1 r2))
    /\ Option.isOption (VOption (Option.Some v))
       = Option.isOption (VOption Option.None).
Proof.
  intros World host stringify v m w Hv.
  assert (Hp : present (Option.Some v) = false) by exact Hv.
  assert (Hsend : forall m', send host stringify (Option.Some v) m' w
                             = match m' with
                               | m_inspect _ =>
                                   (Returned (VOption (Option.Some v)), w, [])
                               | _ => send host stringify Option.None m' w
                               end).
  { intros m'.
    rewrite (send_absent host stringify (Option.Some v) m' w Hp).
    rewrite (send_absent host stringify Option.None m' w present_None).
    destruct m'; reflexivity. }
  split; [| split; [| split; [| split; [| split; [| split]]]]].
  - rewrite Hsend. destruct m; try (left; reflexivity).
    right. exists onSome. repeat split.
  - exact (Hsend m_isSome).
  - exact (Hsend m_unwrap).
  - intros f. split; [| split].
    + exact (Hsend (m_map f)).
    + exact (Hsend (m_andThen f)).
    + exact (Hsend (m_filter f)).
  - intros onSome onNone. rewrite match_absent by exact Hp. reflexivity.
  - intros x. split; [| split].
    + rewrite !xor_run, Hp, present_None. reflexivity.
    + unfold Option.and, Option.match_. fold (present x).
      destruct (present x).
      * do 2 eexists. repeat split.
        right. exists (Option.Some v), Option.None. repeat split; assumption.
      * do 2 eexists. repeat split. left. reflexivity.
    + unfold Option.or, Option.match_. fold (present x).
      destruct (present x).
      * do 2 eexists. repeat split. left. reflexivity.
      * do 2 eexists. repeat split.
        right. exists (Option.Some v), Option.None. repeat split; assumption.
  - reflexivity.
Qed.

Lemma Some_of_null_or_undefined_behaves_as_None_witness :
  isDefined VNull = false
  /\ (send test_host test_stringify (Option.Some VNull)
        (m_inspect "v => (value = v)") (VNumber 0)
      = send test_host test_stringify Option.None
          (m_inspect "v => (value = v)") (VNumber 0)
      \/ exists onSome : fnid,
           m_inspect "v => (value = v)" = m_inspect onSome
           /\ send test_host test_stringify (Option.Some VNull)
                (m_inspect "v => (value = v)") (VNumber 0)
              = (Returned (VOption (Option.Some VNull)), VNumber 0, [])
           /\ send test_host test_stringify Option.None
                (m_inspect "v => (value = v)") (VNumber 0)
              = (Returned (VOption Option.None), VNumber 0, [])).
Proof.
  split.
  - reflexivity.
  - exact (proj1 (Some_of_null_or_undefined_behaves_as_None value test_host
                    test_stringify VNull (m_inspect "v => (value = v)")
                    (VNumber 0) eq_refl)).
Defined.

(** * Further properties of the methods *)

Lemma and_run {World} (a b : Option) (w : World) :
  Option.and a b w
  = (Returned (VOption (if present a then b else Option.None)), w, []).
Proof.
  unfold Option.and, Option.match_. fold (present a).
  destruct (present a); reflexivity.
Qed.

Lemma or_run {World} (a b : Option) (w : World) :
  Option.or a b w = (Returned (VOption (if present a then a else b)), w, []).
Proof.
  unfold Option.or, Option.match_. fold (present a).
  destruct (present a); [| reflexivity].
  destruct a as [v]. reflexivity.
Qed.

Lemma expect_run {World} (this : Option) (message : string) (w : World) :
  Option.expect this message w
  = if present this
    then (Returned (private_value this), w, [])
    else (Threw (VError message), w, []).
Proof.
  unfold Option.expect, Option.match_. fold (present this).
  destruct (present this); reflexivity.
Qed.

(** ** Predicates and unwrapping *)

(** X1: [isNone()] returns the negation of what [isSome()] returns, and
    [isSome()] returns whether the field is defined; neither invokes a
    function nor changes the world. *)
Theorem isNone_negates_isSome :
  forall (World : Type) (this : Option) (w : World),
    exists b : bool,
      Option.isSome this w = (Returned (VBool b), w, [])
      /\ Option.isNone this w = (Returned (VBool (negb b)), w, [])
      /\ b = isDefined (private_value this).
Proof.
  intros World this w. exists (present this).
  rewrite isSome_run, isNone_run. repeat split.
Qed.

(** X2: when [expect] (so [unwrap] too) returns, what it returns is the
    field, which is neither [null] nor [undefined]; the world is unchanged,
    no function was invoked, and [isSome()] returns [true] on the same
    instance. *)
Theorem expect_returns_only_defined_values :
  forall (World : Type) (this : Option) (message : string)
         (w w1 : World) (v : value) (t : list invocation),
    Option.expect this message w = (Returned v, w1, t) ->
    isDefined v = true
    /\ v <> VNull /\ v <> VUndefined
    /\ v = private_value this /\ w1 = w /\ t = []
    /\ Option.unwrap this w = (Returned v, w, [])
    /\ Option.isSome this w = (Returned (VBool true), w, []).
Proof.
  intros World this message w w1 v t H.
  rewrite expect_run in H.
  destruct (present this) eqn:Hp; [| discriminate H].
  injection H as Hv Hw Ht. subst v w1 t.
  assert (Hd : isDefined (private_value this) = true) by exact Hp.
  destruct (proj1 (isDefined_true_iff _) Hd) as [Hn Hu].
  repeat split; auto.
  - unfold Option.unwrap. rewrite expect_run, Hp. reflexivity.
  - rewrite isSome_run, Hp. reflexivity.
Qed.

Lemma expect_returns_only_defined_values_witness :
  isDefined (VNumber 10) = true
  /\ VNumber 10 <> VNull /\ VNumber 10 <> VUndefined
  /\ VNumber 10 = private_value (Option.Some (VNumber 10))
  /\ tt = tt /\ @nil invocation = []
  /\ Option.unwrap (Option.Some (VNumber 10)) tt
     = (Returned (VNumber 10), tt, [])
  /\ Option.isSome (Option.Some (VNumber 10)) tt
     = (Returned (VBool true), tt, []).
Proof.
  exact (expect_returns_only_defined_values unit (Option.Some (VNumber 10))
           "value is not defined" tt tt (VNumber 10) [] eq_refl).
Defined.

(** X3: [unwrapOr(d)] returns the field when it is defined and [d]
    otherwise, invoking nothing; its result is defined whenever the field
    or [d] is.  [unwrapOrElse(f)] returns the field when it is defined,
    without invoking [f], and otherwise is the call [f()]. *)
Theorem unwrapOr_and_unwrapOrElse :
  forall (World : Type) (host : fnid -> behaviour World)
         (this : Option) (d : value) (f : fnid) (w : World),
    Option.unwrapOr this d w
    = (Returned (if present this then private_value this else d), w, [])
    /\ isDefined (if present this then private_value this else d)
       = (present this || isDefined d)%bool
    /\ Option.unwrapOrElse this (call host f) w
       = if present this
         then (Returned (private_value this), w, [])
         else call host f [] w.
Proof.
  intros World host this d f w.
  unfold Option.unwrapOr, Option.unwrapOrElse, Option.match_.
  fold (present this).
  destruct (present this) eqn:Hp; repeat split; exact Hp.
Qed.

(** ** Mapping with a default, and inspection *)



(** X5: [inspect(f)] returns its receiver.  On an instance that holds a
    value it invokes [f] once on that value, discards what [f] returns, keeps
    the world [f] leaves, and throws what [f] throws; on an instance that
    holds none it does nothing. *)
Theorem inspect_returns_its_receiver :
  forall (World : Type) (host : fnid -> behaviour World)
         (this : Option) (f : fnid) (w : World),
    Option.inspect this (call host f) w
    = if present this
      then match host f [private_value this] w with
           | (Returned _, w1) =>
               (Returned (VOption this), w1, [Invoke f [private_value this]])
           | (Threw e, w1) => (Threw e, w1, [Invoke f [private_value this]])
           end
      else (Returned (VOption this), w, []).
Proof.
  intros World host this f w.
  unfold Option.inspect, bind.
  destruct (present this) eqn:Hp.
  - rewrite match_present by exact Hp. unfold call.
    destruct (host f [private_value this] w) as [[r | e] w1]; reflexivity.
  - rewrite match_absent by exact Hp. reflexivity.
Qed.

(** ** The boolean combinators *)

(** X6: [a.and(b)] returns [b] when [a] holds a value and [None] otherwise;
    [a.or(b)] returns an instance equal to [a] when [a] holds a value and
    [b] otherwise.  On the states they are conjunction and disjunction.
    Neither invokes a function. *)
Theorem and_or_on_states :
  forall (World : Type) (a b : Option) (w : World),
    exists r_and r_or : Option,
      Option.and a b w = (Returned (VOption r_and), w, [])
      /\ Option.or a b w = (Returned (VOption r_or), w, [])
      /\ r_and = (if present a then b else Option.None)
      /\ r_or = (if present a then a else b)
      /\ present r_and = (present a && present b)%bool
      /\ present r_or = (present a || present b)%bool.
Proof.
  intros World a b w.
  exists (if present a then b else Option.None), (if present a then a else b).
  rewrite and_run, or_run.
  destruct (present a) eqn:Ha; repeat split; auto.
Qed.

(** X7: [and] and [or] are associative up to the stored value:
    [a.and(b).and(c)] and [a.and(b.and(c))] return instances with equal
    fields, and so do [a.or(b).or(c)] and [a.or(b.or(c))].  (Instances are
    compared by their field here; [or] on a receiver that holds a value
    builds a new instance around that value.) *)
Theorem and_or_associative :
  forall (World : Type) (a b c : Option) (w : World),
    (exists ab bc r : Option,
        Option.and a b w = (Returned (VOption ab), w, [])
        /\ Option.and b c w = (Returned (VOption bc), w, [])
        /\ Option.and ab c w = (Returned (VOption r), w, [])
        /\ Option.and a bc w = (Returned (VOption r), w, []))
    /\ (exists ab bc r : Option,
          Option.or a b w = (Returned (VOption ab), w, [])
          /\ Option.or b c w = (Returned (VOption bc), w, [])
          /\ Option.or ab c w = (Returned (VOption r), w, [])
          /\ Option.or a bc w = (Returned (VOption r), w, [])).
Proof.
  intros World a b c w. split.
  - exists (if present a then b else Option.None),
      (if present b then c else Option.None),
      (if present a then if present b then c else Option.None
       else Option.None).
    rewrite !and_run.
    destruct (present a) eqn:Ha, (present b) eqn:Hb;
      rewrite ?Hb, ?present_None; repeat split.
  - exists (if present a then a else b), (if present b then b else c),
      (if present a then a else if present b then b else c).
    rewrite !or_run.
    destruct (present a) eqn:Ha, (present b) eqn:Hb;
      rewrite ?Ha, ?Hb; repeat split.
Qed.

(** X8: [orElse(g)] returns an instance equal to its receiver, without
    invoking [g], when the receiver holds a value; otherwise it is the call
    [g()], whose result it returns as it is.  When [g] returns the instance
    [b] and leaves the world alone, the result and the world are those of
    [or(b)]. *)
Theorem orElse_invokes_fallback_only_when_absent :
  forall (World : Type) (host : fnid -> behaviour World)
         (this : Option) (g : fnid) (w : World),
    Option.orElse this (call host g) w
    = (if present this
       then (Returned (VOption this), w, [])
       else call host g [] w)
    /\ (forall b : Option,
          host g [] w = (Returned (VOption b), w) ->
          fst (Option.orElse this (call host g) w)
          = fst (Option.or this b w)).
Proof.
  intros World host this g w.
  assert (H : Option.orElse this (call host g) w
              = if present this
                then (Returned (VOption this), w, [])
                else call host g [] w).
  { unfold Option.orElse, Option.match_. fold (present this).
    destruct (present this); [| reflexivity].
    destruct this as [v]. reflexivity. }
  split; [exact H |].
  intros b Hg. rewrite H, or_run. unfold call. rewrite Hg.
  destruct (present this); reflexivity.
Qed.

(** ** Laws of [map] and [andThen] *)

(** X9: identity laws.  [a.andThen(Option.Some)] and [a.map(x => x)] return
    an instance equal to [a] when [a] holds a value, and [None] otherwise;
    in both cases the result is like [a]. *)
Theorem andThen_Some_and_map_identity :
  forall (World : Type) (a : Option) (w : World),
    Option.andThen a Option.Some_fn w
    = (Returned (VOption (if present a then a else Option.None)), w, [])
    /\ Option.map a IDENTITY w
       = (Returned (VOption (if present a then a else Option.None)), w, [])
    /\ alike (Returned (VOption a))
             (Returned (VOption (if present a then a else Option.None))).
Proof.
  intros World a w.
  unfold Option.andThen, Option.map, Option.match_. fold (present a).
  destruct (present a) eqn:Ha; repeat split.
  - destruct a as [v]. reflexivity.
  - destruct a as [v]. reflexivity.
  - left. reflexivity.
  - right. exists a, Option.None. repeat split. exact Ha.
Qed.

(** X10: associativity of [andThen].  For all caller functions [f] and [g],
    [a.andThen(f).andThen(g)] and [a.andThen(x => f(x).andThen(g))] have the
    same result, leave the same world and make the same invocations,
    whatever [f] returns and whatever the host does with a method call on a
    value that is not an instance. *)
Theorem andThen_associative :
  forall (World : Type) (host : fnid -> behaviour World)
         (not_an_instance : value -> M World value)
         (a : Option) (f g : fnid) (w : World),
    (r <- Option.andThen a (call host f) ;;
     method_of not_an_instance r (fun o => Option.andThen o (call host g))) w
    = Option.andThen a
        (fun args =>
           r <- call host f [arg 0 args] ;;
           method_of not_an_instance r
             (fun o => Option.andThen o (call host g))) w.
Proof.
  intros World host not_an_instance a f g w.
  unfold Option.andThen at 1 3.
  destruct (present a) eqn:Ha.
  - rewrite !match_present by exact Ha. reflexivity.
  - rewrite !match_absent by exact Ha. reflexivity.
Qed.

(** X11: [map] after [map].  On an instance that holds [v], when [f(v)]
    returns [r], [map(f)] returns [Some(r)], and [map(g)] on that result
    invokes [g] on [r] only if [r] is neither [null] nor [undefined]; when
    [r] is one of them the second [map] returns [None] and [g] is not
    invoked. *)
Theorem map_after_map :
  forall (World : Type) (host : fnid -> behaviour World)
         (a : Option) (f g : fnid) (w w1 : World) (r : value),
    present a = true ->
    host f [private_value a] w = (Returned r, w1) ->
    exists o : Option,
      Option.map a (call host f) w
      = (Returned (VOption o), w1, [Invoke f [private_value a]])
      /\ o = Option.Some r
      /\ Option.map o (call host g) w1
         = if isDefined r
           then match host g [r] w1 with
                | (Returned r2, w2) =>
                    (Returned (VOption (Option.Some r2)), w2, [Invoke g [r]])
                | (Threw e, w2) => (Threw e, w2, [Invoke g [r]])
                end
           else (Returned (VOption Option.None), w1, []).
Proof.
  intros World host a f g w w1 r Ha Hf.
  exists (Option.Some r). repeat split.
  - unfold Option.map. rewrite match_present by exact Ha.
    run_monad. rewrite Hf. reflexivity.
  - unfold Option.map, Option.match_. cbn.
    destruct (isDefined r); [| reflexivity].
    run_monad. destruct (host g [r] w1) as [[r2 | e] w2]; reflexivity.
Qed.

Lemma map_after_map_witness :
  exists o : Option,
    Option.map (Option.Some (VNumber 10))
      (call test_host "() => {}") VNull
    = (Returned (VOption o), VNull,
       [Invoke "() => {}"
          [private_value (Option.Some (VNumber 10))]])
    /\ o = Option.Some VUndefined
    /\ Option.map o (call test_host "v => v + 1") VNull
       = if isDefined VUndefined
         then match test_host "v => v + 1" [VUndefined] VNull with
              | (Returned r2, w2) =>
                  (Returned (VOption (Option.Some r2)), w2,
                   [Invoke "v => v + 1" [VUndefined]])
              | (Threw e, w2) => (Threw e, w2, [Invoke "v => v + 1" [VUndefined]])
              end
         else (Returned (VOption Option.None), VNull, []).
Proof.
  exact (map_after_map value test_host (Option.Some (VNumber 10))
           "() => {}" "v => v + 1" VNull VNull VUndefined
           eq_refl eq_refl).
Defined.

(** ** Exclusive or *)

(** X12: [xor] is commutative, payload included; [a.xor(a)] is [None]; and
    [a.xor(None)] is [a] when [a] holds a value and [None] otherwise. *)
Theorem xor_commutative :
  forall (World : Type) (a b : Option) (w : World),
    Option.xor a b w = Option.xor b a w
    /\ Option.xor a a w = (Returned (VOption Option.None), w, [])
    /\ Option.xor a Option.None w
       = (Returned (VOption (if present a then a else Option.None)), w, []).
Proof.
  intros World a b w. rewrite !xor_run, present_None.
  destruct (present a) eqn:Ha, (present b) eqn:Hb; repeat split.
Qed.

(** X13: [xor] is not associative on payloads: for three instances that
    each hold a value, [a.xor(b).xor(c)] returns [c] while
    [a.xor(b.xor(c))] returns [a]. *)
Theorem xor_not_associative_on_payloads :
  forall (World : Type) (a b c : Option) (w : World),
    present a = true -> present b = true -> present c = true ->
    (exists ab : Option,
        Option.xor a b w = (Returned (VOption ab), w, [])
        /\ Option.xor ab c w = (Returned (VOption c), w, []))
    /\ (exists bc : Option,
          Option.xor b c w = (Returned (VOption bc), w, [])
          /\ Option.xor a bc w = (Returned (VOption a), w, [])).
Proof.
  intros World a b c w Ha Hb Hc. split.
  - exists Option.None. rewrite !xor_run, Ha, Hb, Hc, present_None.
    split; reflexivity.
  - exists Option.None. rewrite !xor_run, Ha, Hb, Hc, present_None.
    split; reflexivity.
Qed.

Lemma xor_not_associative_on_payloads_witness :
  (exists ab : Option,
      Option.xor (Option.Some (VNumber 1)) (Option.Some (VNumber 2)) tt
      = (Returned (VOption ab), tt, [])
      /\ Option.xor ab (Option.Some (VNumber 3)) tt
         = (Returned (VOption (Option.Some (VNumber 3))), tt, []))
  /\ (exists bc : Option,
        Option.xor (Option.Some (VNumber 2)) (Option.Some (VNumber 3)) tt
        = (Returned (VOption bc), tt, [])
        /\ Option.xor (Option.Some (VNumber 1)) bc tt
           = (Returned (VOption (Option.Some (VNumber 1))), tt, [])).
Proof.
  exact (xor_not_associative_on_payloads unit (Option.Some (VNumber 1))
           (Option.Some (VNumber 2)) (Option.Some (VNumber 3)) tt
           eq_refl eq_refl eq_refl).
Defined.

(** ** Conversions *)

(** X14: [toString()] returns the string ["None"] on an instance that holds
    no value ([Some(null)] among them), without converting anything.  On an
    instance that holds a value it runs the host's conversion on the field
    and returns ["Some("], the converted string and [")"], with the effects
    of the conversion, or throws what the conversion throws.  So whenever it
    returns, it returns a string, and that string is ["None"] exactly when
    the instance holds no value. *)
Theorem toString_is_None_exactly_when_absent :
  forall (World : Type) (stringify : conversion World)
         (this : Option) (w : World),
    Option.toString stringify this w
    = (if present this
       then match stringify (private_value this) w with
            | (Returned s, w1, t) =>
                (Returned (VString ("Some(" ++ s ++ ")")), w1, t)
            | (Threw e, w1, t) => (Threw e, w1, t)
            end
       else (Returned (VString "None"), w, []))
    /\ (forall (r : value) (w1 : World) (t : list invocation),
          Option.toString stringify this w = (Returned r, w1, t) ->
          exists s : string,
            r = VString s /\ (s = "None" <-> present this = false)).
Proof.
  intros World stringify this w.
  split; [apply toString_run |].
  intros r w1 t H. rewrite toString_run in H.
  destruct (present this) eqn:Hp.
  - destruct (stringify (private_value this) w) as [[[s | e] w'] t'];
      [| discriminate H].
    injection H as <- _ _. eexists. split; [reflexivity |].
    split; intros H; discriminate H.
  - injection H as <- _ _. eexists. split; [reflexivity |].
    split; reflexivity.
Qed.

(** X15: [toJSON()] returns the field when it is defined and [undefined]
    otherwise, so it never returns [null], and its result is defined
    exactly when the instance holds a value.  [Option.from] applied to that
    result gives back an instance equal to the receiver when it holds a
    value, and [None] otherwise. *)
Theorem toJSON_never_returns_null :
  forall (World : Type) (this : Option) (w : World),
    exists j : value,
      Option.toJSON this w = (Returned j, w, [])
      /\ j <> VNull
      /\ isDefined j = present this
      /\ j = (if present this then private_value this else VUndefined)
      /\ Option.from j = (if present this then this else Option.None).
Proof.
  intros World this w.
  exists (if present this then private_value this else VUndefined).
  destruct this as [v]. unfold Option.toJSON, Option.match_, present. cbn.
  destruct (isDefined v) eqn:Hv; repeat split; auto; try discriminate.
  - intros ->. discriminate Hv.
  - unfold Option.from. rewrite Hv. reflexivity.
Qed.

(** X16: an instance made by [Option.from] never stores [null]: it holds a
    value exactly when the input is defined, [toJSON()] on it returns the
    input when that is defined and [undefined] otherwise ([null] comes back
    as [undefined]), and [Option.from] of its field is an instance with
    the same field (a new instance, compared by its field here). *)
Theorem from_never_stores_null :
  forall (World : Type) (v : value) (w : World),
    private_value (Option.from v) <> VNull
    /\ present (Option.from v) = isDefined v
    /\ Option.toJSON (Option.from v) w
       = (Returned (if isDefined v then v else VUndefined), w, [])
    /\ Option.from (private_value (Option.from v)) = Option.from v.
Proof.
  intros World v w. unfold Option.from.
  destruct (isDefined v) eqn:Hv; repeat split; try discriminate.
  - cbn. intros ->. discriminate Hv.
  - exact Hv.
  - unfold Option.toJSON, Option.match_. cbn. rewrite Hv. reflexivity.
  - cbn. rewrite Hv. reflexivity.
Qed.

(** ** All methods *)

(** X17: [map], [inspect], [and], [filter], [or] and [xor] return an
    instance of the class whenever they return, whatever the caller
    functions do. *)
Theorem combinators_return_instances :
  forall (World : Type) (host : fnid -> behaviour World)
         (stringify : conversion World)
         (this : Option) (m : method) (w w1 : World) (r : value)
         (t : list invocation),
    returns_instance m = true ->
    send host stringify this m w = (Returned r, w1, t) ->
    Option.isOption r = true.
Proof.
  intros World host stringify this m w w1 r t Hm H. unfold send in H.
  destruct m; try discriminate Hm;
    try (rewrite xor_run in H; injection H as <- _ _; reflexivity);
    try (rewrite and_run in H; injection H as <- _ _; reflexivity);
    try (rewrite or_run in H; injection H as <- _ _; reflexivity);
    unfold_methods_in H; unfold bind in H;
    destruct (present this) eqn:Hp;
    rewrite ?match_present, ?match_absent in H by exact Hp;
    run_monad_in H; case_host H;
    try discriminate H;
    try (destruct (truthy _));
    injection H as <- _ _; reflexivity.
Qed.

Lemma combinators_return_instances_witness :
  Option.isOption (VOption (Option.Some (VNumber 11))) = true.
Proof.
  exact (combinators_return_instances value test_host test_stringify
           (Option.Some (VNumber 10)) (m_map "v => v + 1") VNull VNull
           (VOption (Option.Some (VNumber 11)))
           [Invoke "v => v + 1" [VNumber 10]] eq_refl eq_refl).
Defined.

(** X18: [toString] on an instance that holds a value has the effects and
    invocations of the host's string conversion of the field, and no
    others.  Every other method call invokes at most one caller function, at
    most once: either nothing is invoked and the world is unchanged, or
    there is one invocation, the world is the one it leaves, and its
    arguments are the field alone, which is then defined, or none at all,
    on an instance that holds no value.  No function passed to a method
    receives [null] or [undefined] from the class. *)
Theorem methods_invoke_at_most_one_function :
  forall (World : Type) (host : fnid -> behaviour World)
         (stringify : conversion World)
         (this : Option) (m : method) (w : World),
    match send host stringify this m w with
    | (r, w1, t) =>
        (t = [] /\ w1 = w)
        \/ (exists (f : fnid) (args : list value),
               t = [Invoke f args]
               /\ w1 = snd (host f args w)
               /\ ((present this = true /\ args = [private_value this]
                    /\ isDefined (private_value this) = true)
                   \/ (present this = false /\ args = [])))
        \/ (m = m_toString /\ present this = true
            /\ snd (fst (stringify (private_value this) w)) = w1
            /\ snd (stringify (private_value this) w) = t)
    end.
Proof.
  intros World host stringify this m w.
  destruct (send host stringify this m w) as [[r w1] t] eqn:H.
  unfold send in H.
  destruct m;
    try (rewrite xor_run in H; injection H as _ <- <-; left; split;
         reflexivity).
  19: {
    rewrite toString_run in H.
    destruct (present this) eqn:Hp.
    - right. right.
      destruct (stringify (private_value this) w) as [[[s | e] w'] t'];
        injection H as _ <- <-; repeat split.
    - injection H as _ <- <-. left. split; reflexivity. }
  all: unfold_methods_in H; unfold bind in H;
    destruct (present this) eqn:Hp;
    rewrite ?match_present, ?match_absent in H by exact Hp;
    run_monad_in H; case_host H;
    try (destruct (truthy _));
    injection H as _ <- <-;
    first
      [ left; split; reflexivity
      | right; left; do 2 eexists; split; [reflexivity |];
        split; [rewrite Hhost; reflexivity |];
        first [ left; repeat split; exact Hp
              | right; split; reflexivity ] ].
Qed.
